(** * EconBank: the ledger core of [econApp.py]

    A shallow embedding of the storage, authentication and ledger code of
    the Economics Club Bank application, and the properties of it that
    the specification relies on.

    Conventions of the embedding.
    - A Python [str] is represented by the bytes of its UTF-8 encoding, as
      a [string]; [password.encode()] is therefore the identity, and two
      [str] are equal exactly when their representations are.
    - An amount is a Python [float], a binary64 number: the type [float]
      of [PrimFloat], with the IEEE 754 addition, subtraction and
      comparison of the machine.  [float(amount)] of a float is that
      float.  Python's [sum] starts from the integer 0, which the first
      addition turns into the float 0.0, and adds the items from left to
      right, rounding at each addition (CPython before 3.12; later
      versions compensate the rounding inside [sum]).
    - A [dict] with fixed keys is a record; the [users] dict is a finite
      map from user names to user records.  The insertion order of the
      dict is not kept.
    - [=] is equality of terms; on floats it tells 0.0 from -0.0.
    - The wall clock read by [datetime.now()] is an argument of the
      functions that read it.
    - Streamlit's session state and the data file together form the
      [world] that the button handlers transform.  The data file is
      shared by the sessions: between two runs of one session its content
      may change.
    - The figures and charts that pandas and plotly compute
      ([Series.sum], [groupby], [to_datetime]) are not modelled; of
      [admin_dashboard] the model has the list [all_logs] it builds. *)

From Stdlib Require Import ZArith Floats Lia String Ascii List.
From stdpp Require Import base option list gmap strings fin_maps.

Set Warnings "-inexact-float".

Open Scope Z_scope.
Open Scope string_scope.

(** ** SHA-256 (FIPS 180-4), the function behind [hashlib.sha256] *)

Module SHA256.

Definition wrap32 (x : Z) : Z := x mod 2 ^ 32.
Definition add32 (x y : Z) : Z := wrap32 (x + y).
Definition rotr (n x : Z) : Z :=
  Z.lor (Z.shiftr x n) (wrap32 (Z.shiftl x (32 - n))).
Definition shr (n x : Z) : Z := Z.shiftr x n.

Definition Ch (x y z : Z) : Z :=
  Z.lxor (Z.land x y) (Z.land (Z.lxor x 0xffffffff) z).
Definition Maj (x y z : Z) : Z :=
  Z.lxor (Z.lxor (Z.land x y) (Z.land x z)) (Z.land y z).
Definition bsig0 (x : Z) : Z := Z.lxor (Z.lxor (rotr 2 x) (rotr 13 x)) (rotr 22 x).
Definition bsig1 (x : Z) : Z := Z.lxor (Z.lxor (rotr 6 x) (rotr 11 x)) (rotr 25 x).
Definition ssig0 (x : Z) : Z := Z.lxor (Z.lxor (rotr 7 x) (rotr 18 x)) (shr 3 x).
Definition ssig1 (x : Z) : Z := Z.lxor (Z.lxor (rotr 17 x) (rotr 19 x)) (shr 10 x).

(** The first sixty-four primes. *)
Definition primes : list Z :=
  [ 2; 3; 5; 7; 11; 13; 17; 19; 23; 29; 31; 37; 41; 43; 47; 53;
    59; 61; 67; 71; 73; 79; 83; 89; 97; 101; 103; 107; 109; 113; 127; 131;
    137; 139; 149; 151; 157; 163; 167; 173; 179; 181; 191; 193; 197; 199;
    211; 223; 227; 229; 233; 239; 241; 251; 257; 263; 269; 271; 277; 281;
    283; 293; 307; 311 ].

(** The integer cube root of [n], one bit at a time from [2 ^ bits] down. *)
Fixpoint cbrt_from (bits : nat) (root n : Z) : Z :=
  let cand := root + 2 ^ Z.of_nat bits in
  let root' := if Z.leb (cand * cand * cand) n then cand else root in
  match bits with
  | O => root'
  | S bits' => cbrt_from bits' root' n
  end.

(** The round constants: the first 32 bits of the fractional parts of the
    cube roots of the primes. *)
Definition K : list Z :=
  Eval vm_compute in map (fun p => wrap32 (cbrt_from 40 0 (p * 2 ^ 96))) primes.

(** The eight working registers, also the chaining value. *)
Record regs : Type := Regs {
  ra : Z; rb : Z; rc : Z; rd : Z; re : Z; rf : Z; rg : Z; rh : Z
}.

(** The first 32 bits of the fractional part of a square root. *)
Definition sqrt_frac (p : Z) : Z := wrap32 (Z.sqrt (p * 2 ^ 64)).

(** The initial hash value, from the square roots of the first eight
    primes. *)
Definition H0 : regs :=
  Eval vm_compute in
    Regs (sqrt_frac 2) (sqrt_frac 3) (sqrt_frac 5) (sqrt_frac 7)
         (sqrt_frac 11) (sqrt_frac 13) (sqrt_frac 17) (sqrt_frac 19).

(** Big-endian bytes of [x], [n] of them. *)
Definition be_bytes (n : nat) (x : Z) : list Z :=
  map (fun i => (x / 256 ^ Z.of_nat i) mod 256) (rev (seq 0 n)).

(** Padding: a [1] bit, zero bits up to 56 modulo 64 bytes, then the
    message length in bits on 8 bytes. *)
Definition pad (msg : list Z) : list Z :=
  let len := Z.of_nat (length msg) in
  msg ++ 0x80 :: repeat 0 (Z.to_nat ((55 - len) mod 64)) ++ be_bytes 8 (8 * len).

Fixpoint words_of_bytes (bs : list Z) : list Z :=
  match bs with
  | b3 :: b2 :: b1 :: b0 :: rest =>
      (b3 * 2 ^ 24 + b2 * 2 ^ 16 + b1 * 2 ^ 8 + b0) :: words_of_bytes rest
  | _ => []
  end.

(** The message schedule beyond the block itself; [recent] holds the
    words computed so far, the latest first. *)
Fixpoint extend (n : nat) (recent : list Z) : list Z :=
  match n with
  | O => []
  | S n' =>
      let w := add32 (add32 (add32 (ssig1 (nth 1 recent 0)) (nth 6 recent 0))
                            (ssig0 (nth 14 recent 0)))
                     (nth 15 recent 0) in
      w :: extend n' (w :: recent)
  end.

Definition schedule (block : list Z) : list Z :=
  block ++ extend 48 (rev block).

Definition round (s : regs) (kw : Z * Z) : regs :=
  let t1 := add32 (add32 (add32 (add32 (rh s) (bsig1 (re s)))
                                (Ch (re s) (rf s) (rg s)))
                         (fst kw))
                  (snd kw) in
  let t2 := add32 (bsig0 (ra s)) (Maj (ra s) (rb s) (rc s)) in
  Regs (add32 t1 t2) (ra s) (rb s) (rc s) (add32 (rd s) t1) (re s) (rf s) (rg s).

Definition compress (h : regs) (block : list Z) : regs :=
  let s := fold_left round (combine K (schedule block)) h in
  Regs (add32 (ra h) (ra s)) (add32 (rb h) (rb s))
       (add32 (rc h) (rc s)) (add32 (rd h) (rd s))
       (add32 (re h) (re s)) (add32 (rf h) (rf s))
       (add32 (rg h) (rg s)) (add32 (rh h) (rh s)).

Fixpoint process (n : nat) (ws : list Z) (h : regs) : regs :=
  match n with
  | O => h
  | S n' => process n' (skipn 16 ws) (compress h (firstn 16 ws))
  end.

Definition digest (msg : list Z) : regs :=
  let ws := words_of_bytes (pad msg) in
  process (length ws / 16)%nat ws H0.

Definition hex_alphabet : list ascii := list_ascii_of_string "0123456789abcdef".

Definition hex_digit (d : Z) : ascii :=
  nth (Z.to_nat (d mod 16)) hex_alphabet "0"%char.

Definition hex8 (w : Z) : list ascii :=
  map (fun i => hex_digit (w / 16 ^ Z.of_nat i)) (rev (seq 0 8)).

Definition hex_of_regs (s : regs) : list ascii :=
  flat_map hex8 [ra s; rb s; rc s; rd s; re s; rf s; rg s; rh s].

Definition bytes_of_string (s : string) : list Z :=
  map (fun c => Z.of_N (N_of_ascii c)) (list_ascii_of_string s).

(** [hashlib.sha256(data).hexdigest()] *)
Definition hexdigest (data : string) : string :=
  string_of_list_ascii (hex_of_regs (digest (bytes_of_string data))).

End SHA256.

(** ** Python strings *)

(** The white space of [str.strip()]: the characters for which
    [str.isspace()] holds, here through their UTF-8 encodings
    (U+0009..000D, U+001C..0020, U+0085, U+00A0, U+1680, U+2000..200A,
    U+2028, U+2029, U+202F, U+205F, U+3000). *)
Definition space1 (c : ascii) : bool :=
  let n := N_of_ascii c in
  ((9 <=? n) && (n <=? 13) || (28 <=? n) && (n <=? 32))%N.

Definition space2 (c1 c2 : ascii) : bool :=
  let n1 := N_of_ascii c1 in
  let n2 := N_of_ascii c2 in
  ((n1 =? 0xC2) && ((n2 =? 0x85) || (n2 =? 0xA0)))%N.

Definition space3 (c1 c2 c3 : ascii) : bool :=
  let n1 := N_of_ascii c1 in
  let n2 := N_of_ascii c2 in
  let n3 := N_of_ascii c3 in
  ((n1 =? 0xE1) && (n2 =? 0x9A) && (n3 =? 0x80)
   || (n1 =? 0xE2) && (n2 =? 0x80)
      && ((0x80 <=? n3) && (n3 <=? 0x8A)
          || (n3 =? 0xA8) || (n3 =? 0xA9) || (n3 =? 0xAF))
   || (n1 =? 0xE2) && (n2 =? 0x81) && (n3 =? 0x9F)
   || (n1 =? 0xE3) && (n2 =? 0x80) && (n3 =? 0x80))%N.

(** Drops the white space at the head of [s]; with [fwd = false] the list
    is a reversed string, whose multi-byte characters read backwards. *)
Fixpoint drop_space (fwd : bool) (s : list ascii) : list ascii :=
  match s with
  | [] => []
  | c1 :: s1 =>
      if space1 c1 then drop_space fwd s1 else
      match s1 with
      | [] => s
      | c2 :: s2 =>
          if (if fwd then space2 c1 c2 else space2 c2 c1)
          then drop_space fwd s2 else
          match s2 with
          | [] => s
          | c3 :: s3 =>
              if (if fwd then space3 c1 c2 c3 else space3 c3 c2 c1)
              then drop_space fwd s3 else s
          end
      end
  end.

(** [s.strip()] *)
Definition strip (s : string) : string :=
  string_of_list_ascii
    (rev (drop_space false (rev (drop_space true (list_ascii_of_string s))))).

(** ** Data model *)

(** A log entry, the dict built by [log_transaction]. *)
Record transaction : Type := Transaction {
  type : string;
  amount : float;
  description : string;
  timestamp : string
}.

(** A user record, the dict stored under [data['users'][username]]. *)
Record user : Type := User {
  password : string;
  role : string;
  logs : list transaction
}.

(** The document held in [st.session_state['data']]. *)
Record document : Type := Document {
  users : gmap string user
}.

(** ** The persisted JSON document *)

(** The value tree of a JSON text.  [json.dump] writes such a tree and
    [json.load] reads it back; the text syntax itself belongs to the
    [json] library and is not modelled. *)
#[warnings="-register-all"]
Inductive json : Type :=
  | JNull
  | JBool (b : bool)
  | JNumber (x : float)
  | JString (s : string)
  | JArray (items : list json)
  | JObject (members : list (string * json)).

Definition log_to_json (t : transaction) : json :=
  JObject [ ("type", JString (type t));
            ("amount", JNumber (amount t));
            ("description", JString (description t));
            ("timestamp", JString (timestamp t)) ].

Definition user_to_json (u : user) : json :=
  JObject [ ("password", JString (password u));
            ("role", JString (role u));
            ("logs", JArray (map log_to_json (logs u))) ].

Definition document_to_json (d : document) : json :=
  JObject [ ("users",
             JObject (map (fun kv => (fst kv, user_to_json (snd kv)))
                          (map_to_list (users d)))) ].

(** [obj[key]] on a loaded object; of two members with one name
    [json.load] keeps the later. *)
Fixpoint assoc_last (key : string) (members : list (string * json))
    : option json :=
  match members with
  | [] => None
  | (k, v) :: rest =>
      match assoc_last key rest with
      | Some v' => Some v'
      | None => if decide (k = key) then Some v else None
      end
  end.

Definition member (key : string) (j : json) : option json :=
  match j with
  | JObject ms => assoc_last key ms
  | _ => None
  end.

Definition as_string (j : json) : option string :=
  match j with JString s => Some s | _ => None end.

Definition as_number (j : json) : option float :=
  match j with JNumber x => Some x | _ => None end.

Definition as_array (j : json) : option (list json) :=
  match j with JArray l => Some l | _ => None end.

Definition log_of_json (j : json) : option transaction :=
  ty ← member "type" j ≫= as_string;
  am ← member "amount" j ≫= as_number;
  de ← member "description" j ≫= as_string;
  ts ← member "timestamp" j ≫= as_string;
  Some (Transaction ty am de ts).

Definition user_of_json (j : json) : option user :=
  pw ← member "password" j ≫= as_string;
  ro ← member "role" j ≫= as_string;
  ls ← member "logs" j ≫= as_array;
  ls' ← mapM log_of_json ls;
  Some (User pw ro ls').

Definition add_user_member (acc : option (gmap string user))
    (kv : string * json) : option (gmap string user) :=
  m ← acc;
  u ← user_of_json (snd kv);
  Some (<[fst kv := u]> m).

Definition users_of_json (j : json) : option (gmap string user) :=
  match j with
  | JObject ms => foldl add_user_member (Some ∅) ms
  | _ => None
  end.

(** The typed reading of a loaded value: the members the application
    subscripts, [None] where the value does not have that layout.  The
    application itself keeps whatever [json.load] returns, and a value
    of another layout raises only where it is subscripted. *)
Definition document_of_json (j : json) : option document :=
  us ← member "users" j ≫= users_of_json;
  Some (Document us).

(** ** Session state and data file *)

(** [st.session_state]: the keys ['data'], ['logged_in_user'], ['page']. *)
Record session : Type := Session {
  data : document;
  logged_in_user : option string;
  page : option string
}.

(** The session together with the content of [DATA_FILE] ([None] while
    the file does not exist).  The session state belongs to one session;
    the file is the one file of all of them. *)
Record world : Type := World {
  session_state : session;
  data_file : option json
}.

Definition set_data (d : document) (w : world) : world :=
  World (Session d (logged_in_user (session_state w)) (page (session_state w)))
        (data_file w).

Definition set_logged_in_user (u : option string) (w : world) : world :=
  World (Session (data (session_state w)) u (page (session_state w)))
        (data_file w).

Definition set_page (p : option string) (w : world) : world :=
  World (Session (data (session_state w)) (logged_in_user (session_state w)) p)
        (data_file w).

(** What a handler shows: [st.success(msg)] or [st.error(msg)]. *)
Inductive message : Type :=
  | st_success (msg : string)
  | st_error (msg : string).

(** ** Load and save *)

(** [hash_password(password)] *)
Definition hash_password (password : string) : string :=
  SHA256.hexdigest password.

(** The document [load_data] returns when [DATA_FILE] does not exist. *)
Definition default_document : document :=
  Document {[ "admin" := User (SHA256.hexdigest "admin123") "admin" [] ]}.

(** [load_data()], given the content of the data file: the default
    document when there is no file, else the typed reading of the
    file. *)
Definition load_data (file : option json) : option document :=
  match file with
  | Some j => document_of_json j
  | None => Some default_document
  end.

(** [save_data()]: dumps [st.session_state['data']] over the data file. *)
Definition save_data (w : world) : world :=
  World (session_state w) (Some (document_to_json (data (session_state w)))).

(** Session state initialisation at the top of the script, from nothing. *)
Definition init_session (file : option json) : option world :=
  d ← load_data file;
  Some (World (Session d None None) file).

(** ** Ledger *)

(** [log_transaction(user, t_type, amount, description)]; [now] is the
    formatted clock reading.  [None] is the [KeyError] of an unknown
    [user]. *)
Definition log_transaction (now : string) (user : string) (t_type : string)
    (amount : float) (description : string) (w : world) : option world :=
  let entry := Transaction t_type amount description now in
  let d := data (session_state w) in
  match users d !! user with
  | None => None
  | Some r =>
      let r' := User (password r) (role r) (logs r ++ [entry]) in
      Some (save_data (set_data (Document (<[user := r']> (users d))) w))
  end.

(** [sum(iterable)] of floats: the items added one by one, from the
    left, to a total that starts at 0. *)
Definition py_sum (l : list float) : float := fold_left PrimFloat.add l 0%float.

(** [sum(log["amount"] for log in user_logs if log["type"] == kind)] *)
Definition sum_of_type (kind : string) (user_logs : list transaction) : float :=
  py_sum (map amount
              (List.filter (fun log => bool_decide (type log = kind)) user_logs)).

(** [calculate_summary(user_logs)] *)
Definition calculate_summary (user_logs : list transaction)
    : float * float * float * float * float :=
  let earned := sum_of_type "Earned" user_logs in
  let spent := sum_of_type "Spent" user_logs in
  let given := sum_of_type "Given" user_logs in
  let received := sum_of_type "Received" user_logs in
  let balance := (earned + received - spent - given)%float in
  (earned, spent, given, received, balance).

(** The kinds offered by the select box of [make_transaction_page]. *)
Definition kinds : list string := ["Earned"; "Spent"; "Given"; "Received"].

(** The "Submit Transaction" button of [make_transaction_page]; the test
    is [amount > 0]. *)
Definition submit_txn (now : string) (username : string) (t_type : string)
    (amount : float) (description : string) (w : world)
    : option (world * message) :=
  if (0 <? amount)%float then
    w' ← log_transaction now username t_type amount description w;
    Some (set_page (Some "dashboard") w', st_success "Transaction added!")
  else
    Some (w, st_error "Amount must be greater than 0.").

(** ** Login page *)

(** The test of the "Login" button:
    [username in users and users[username]['password'] == hash_password(password)]. *)
Definition authenticate (d : document) (username password : string) : bool :=
  match users d !! username with
  | Some (User stored _ _) => bool_decide (stored = hash_password password)
  | None => false
  end.

(** The "Login" button of [login_page]. *)
Definition login_button (username password : string) (w : world)
    : world * message :=
  if authenticate (data (session_state w)) username password then
    (set_page (Some "dashboard") (set_logged_in_user (Some username) w),
     st_success ("Welcome back, " ++ username ++ "!"))
  else
    (w, st_error "Invalid username or password").

(** The "Sign Up" button of [login_page]. *)
Definition signup_button (username password : string) (w : world)
    : world * message :=
  let d := data (session_state w) in
  if bool_decide (strip username = "") || bool_decide (strip password = "") then
    (w, st_error "Username and password cannot be empty")
  else if bool_decide (is_Some (users d !! username)) then
    (w, st_error "Username already exists")
  else
    let r := User (hash_password password) "user" [] in
    let w1 := save_data (set_data (Document (<[username := r]> (users d))) w) in
    (set_page (Some "dashboard") (set_logged_in_user (Some username) w1),
     st_success "Account created! Logging you in...").

(** ** Administrator's dashboard *)

(** An item of [all_logs] in [admin_dashboard]: the log entry with the
    member ["User"] added. *)
Definition row : Type := (string * transaction)%type.

(** The rows the inner loop appends for one item of [users.items()]. *)
Definition rows_of (kv : string * user) : list row :=
  map (fun log => (fst kv, log)) (logs (snd kv)).

(** The list [all_logs] built by the two nested loops. *)
Definition all_logs (d : document) : list row :=
  flat_map rows_of (map_to_list (users d)).

(** ** Reference definitions, in the words of the specification *)

(** An entry of one of the four kinds. *)
Definition known_kind (log : transaction) : bool :=
  bool_decide (type log ∈ kinds).


(** The part of the balance an amount of a kind accounts for: [+] for
    Earned and Received, [-] for Spent and Given. *)
Definition signed (t_type : string) (amount : float) : float :=
  if decide (t_type = "Earned" \/ t_type = "Received") then amount
  else (- amount)%float.

(** A bucket of the summary after an amount of kind [t_type] was added. *)
Definition bump (kind t_type : string) (amount x : float) : float :=
  if decide (t_type = kind) then (x + amount)%float else x.

(** The registration is refused: the handler shows an error. *)
Definition signup_fails (username pw : string) (w : world) : Prop :=
  exists msg, snd (signup_button username pw w) = st_error msg.

(** The login is accepted: the handler shows a success. *)
Definition login_succeeds (username pw : string) (w : world) : Prop :=
  exists msg, snd (login_button username pw w) = st_success msg.

(** All the words of length [n] over an alphabet. *)
Fixpoint words_over (alphabet : list ascii) (n : nat) : list (list ascii) :=
  match n with
  | O => [[]]
  | S n' => c ← alphabet; cons c <$> words_over alphabet n'
  end.

(** The world of a first run: no data file, the default document loaded,
    nobody logged in. *)
Definition bootstrap_world : world :=
  World (Session default_document None None) None.

(** ** The script as a whole *)

(** The value of the select box of [make_transaction_page]: one of its
    four options. *)
Inductive kind : Type := Earned | Spent | Given | Received.

Definition kind_name (k : kind) : string :=
  match k with
  | Earned => "Earned"
  | Spent => "Spent"
  | Given => "Given"
  | Received => "Received"
  end.

(** What the user does in one run of the script: the button pressed,
    with the values of the widgets read by its handler. *)
Inductive event : Type :=
  | click_login (username password : string)
  | click_signup (username password : string)
  | click_logout
  | click_make_txn
  | click_submit (now : string) (t_type : kind) (amount : float)
                 (description : string)
  | click_back.

(** The page the main part of the script calls. *)
Inductive view : Type :=
  | show_login_page
  | show_admin_dashboard
  | show_user_dashboard (username : string)
  | show_make_transaction_page (username : string).

(** The main part of the script, with the page test at the head of
    [user_dashboard]; [None] is the [KeyError] of a logged-in user who is
    not in the store. *)
Definition main (w : world) : option view :=
  let ss := session_state w in
  match logged_in_user ss with
  | None => Some show_login_page
  | Some username =>
      match users (data ss) !! username with
      | None => None
      | Some r =>
          if bool_decide (role r = "admin") then Some show_admin_dashboard
          else if bool_decide (page ss = Some "make_transaction")
               then Some (show_make_transaction_page username)
               else Some (show_user_dashboard username)
      end
  end.

(** The "Log Out" button of [user_dashboard]. *)
Definition logout_sidebar (w : world) : world :=
  set_page None (set_logged_in_user None w).

(** The "Log Out" button of [admin_dashboard]: the page is left as it
    is. *)
Definition admin_logout_sidebar (w : world) : world :=
  set_logged_in_user None w.

(** The result of one run of the script. *)
Inductive outcome : Type :=
  | ran (w : world)
  | not_offered
  | raised.

(** One run of the script in which the user presses a button:
    [not_offered] when the page shown does not have the button, [raised]
    on a [KeyError]. *)
Definition run_script (e : event) (w : world) : outcome :=
  match main w with
  | None => raised
  | Some show_login_page =>
      match e with
      | click_login username password =>
          ran (fst (login_button username password w))
      | click_signup username password =>
          ran (fst (signup_button username password w))
      | _ => not_offered
      end
  | Some show_admin_dashboard =>
      match e with
      | click_logout => ran (admin_logout_sidebar w)
      | _ => not_offered
      end
  | Some (show_user_dashboard username) =>
      match e with
      | click_logout => ran (logout_sidebar w)
      | click_make_txn => ran (set_page (Some "make_transaction") w)
      | _ => not_offered
      end
  | Some (show_make_transaction_page username) =>
      match e with
      | click_logout => ran (logout_sidebar w)
      | click_submit now t_type amount description =>
          match submit_txn now username (kind_name t_type) amount
                           description w with
          | Some (w', _) => ran w'
          | None => raised
          end
      | click_back => ran (set_page (Some "dashboard") w)
      | _ => not_offered
      end
  end.

(** The worlds a world can become: run after run of the script in this
    session, the data file being rewritten at any time in between by
    another session. *)
Inductive reaches : world -> world -> Prop :=
  | reaches_refl (w : world) : reaches w w
  | reaches_step (w : world) (e : event) (w' w'' : world) :
      run_script e w = ran w' -> reaches w' w'' -> reaches w w''
  | reaches_file (w : world) (file : option json) (w'' : world) :
      reaches (World (session_state w) file) w'' -> reaches w w''.

(** The runs of a list of events, one after the other; [None] as soon
    as a button is not offered or the script raises. *)
Fixpoint run_events (es : list event) (w : world) : option world :=
  match es with
  | [] => Some w
  | e :: es' =>
      match run_script e w with
      | ran w' => run_events es' w'
      | _ => None
      end
  end.

(** A session of a first run: "alice" signs up, opens the form, earns
    100 and logs out, and the administrator logs in. *)
Definition demo_events : list event :=
  [ click_signup "alice" "pw1"; click_make_txn;
    click_submit "2024-01-01 10:00:00" Earned 100 "job";
    click_logout; click_login "admin" "admin123" ].

(** The worlds of that session when "alice" has the form open, and when
    her submission is logged. *)
Definition form_world : world :=
  default bootstrap_world (run_events (firstn 2 demo_events) bootstrap_world).

Definition paid_world : world :=
  default bootstrap_world (run_events (firstn 3 demo_events) bootstrap_world).

Definition demo_world : world :=
  default bootstrap_world (run_events demo_events bootstrap_world).



(** ** Vocabulary of the properties of the script *)

(** The logged-in user, if any, is a user of the store. *)
Definition session_consistent (w : world) : Prop :=
  match logged_in_user (session_state w) with
  | Some username => is_Some (users (data (session_state w)) !! username)
  | None => True
  end.

(** Every logged amount is positive and every logged type is one of the
    four kinds. *)
Definition logs_valid (w : world) : Prop :=
  forall username r log,
    users (data (session_state w)) !! username = Some r ->
    In log (logs r) ->
    (0 <? amount log)%float = true /\ type log ∈ kinds.

(** The ways one run changes the world: the session alone; a new user
    signed up; an entry appended to the logs of the logged-in user. *)
Inductive change : world -> world -> Prop :=
  | change_session (w w' : world) :
      data (session_state w') = data (session_state w) ->
      data_file w' = data_file w ->
      (logged_in_user (session_state w') = None
       \/ logged_in_user (session_state w') = logged_in_user (session_state w)
       \/ exists username,
            logged_in_user (session_state w') = Some username
            /\ is_Some (users (data (session_state w)) !! username)) ->
      change w w'
  | change_signup (w w' : world) (username pw : string) :
      logged_in_user (session_state w) = None ->
      users (data (session_state w)) !! username = None ->
      users (data (session_state w'))
      = <[username := User (hash_password pw) "user" []]>
          (users (data (session_state w))) ->
      data_file w' = Some (document_to_json (data (session_state w'))) ->
      logged_in_user (session_state w') = Some username ->
      change w w'
  | change_submit (w w' : world) (username : string) (r : user)
      (entry : transaction) :
      logged_in_user (session_state w) = Some username ->
      users (data (session_state w)) !! username = Some r ->
      role r <> "admin" ->
      (0 <? amount entry)%float = true ->
      type entry ∈ kinds ->
      users (data (session_state w'))
      = <[username := User (password r) (role r) (logs r ++ [entry])]>
          (users (data (session_state w))) ->
      data_file w' = Some (document_to_json (data (session_state w'))) ->
      logged_in_user (session_state w') = Some username ->
      change w w'.

(** * Properties *)

(** ** SHA-256 and white space on known values *)

Example sha256_constants :
  nth 0 SHA256.K 0 = 0x428a2f98 /\ nth 63 SHA256.K 0 = 0xc67178f2
  /\ length SHA256.K = 64%nat
  /\ SHA256.ra SHA256.H0 = 0x6a09e667 /\ SHA256.rh SHA256.H0 = 0x5be0cd19.
Proof. repeat split. Qed.

Example sha256_empty :
  SHA256.hexdigest "" = "e3b0c44298fc1c149afbf4c8996fb92427ae41e4649b934ca495991b7852b855".
Proof. vm_compute. reflexivity. Qed.

Example sha256_abc :
  SHA256.hexdigest "abc" = "ba7816bf8f01cfea414140de5dae2223b00361a396177a9cb410ff61f20015ad".
Proof. vm_compute. reflexivity. Qed.

Example sha256_two_blocks :
  SHA256.hexdigest "aaaaaaaaaaaaaaaaaaaaaaaaaaaaaaaaaaaaaaaaaaaaaaaaaaaaaaaa"
  = "b35439a4ac6f0948b6d6f9e3c6af0f5f590ce20f1bde7090ef7970686ec6738a".
Proof. vm_compute. reflexivity. Qed.

Example strip_inner_kept : strip "  a b	 " = "a b".
Proof. vm_compute. reflexivity. Qed.

Example strip_wide_space :
  strip (String (ascii_of_N 0xC2) (String (ascii_of_N 0xA0)
          (String "x" (String (ascii_of_N 0xE3) (String (ascii_of_N 0x80)
            (String (ascii_of_N 0x80) EmptyString))))))
  = "x".
Proof. vm_compute. reflexivity. Qed.

Example strip_not_space :
  strip (String (ascii_of_N 0xE2) (String (ascii_of_N 0x80)
          (String (ascii_of_N 0x8B) EmptyString)))
  <> "".
Proof. vm_compute. discriminate. Qed.

(** ** Sums *)





Lemma filter_known_kind (kind : string) (user_logs : list transaction) :
  kind ∈ kinds ->
  List.filter (fun log => bool_decide (type log = kind))
              (List.filter known_kind user_logs)
  = List.filter (fun log => bool_decide (type log = kind)) user_logs.
Proof.
  intros Hk. induction user_logs as [|log rest IH]; [reflexivity|].
  cbn [List.filter]. unfold known_kind at 1.
  destruct (decide (type log = kind)) as [Heq|Hne].
  - rewrite (bool_decide_eq_true_2 (type log ∈ kinds)) by (rewrite Heq; exact Hk).
    cbn [List.filter]. rewrite bool_decide_eq_true_2 by exact Heq.
    f_equal. exact IH.
  - rewrite (bool_decide_eq_false_2 (type log = kind)) by exact Hne.
    destruct (bool_decide (type log ∈ kinds)); [|exact IH].
    cbn [List.filter]. rewrite bool_decide_eq_false_2 by exact Hne. exact IH.
Qed.

Lemma sum_of_type_known (kind : string) (user_logs : list transaction) :
  kind ∈ kinds ->
  sum_of_type kind (List.filter known_kind user_logs)
  = sum_of_type kind user_logs.
Proof.
  intros Hk. unfold sum_of_type. rewrite filter_known_kind by exact Hk.
  reflexivity.
Qed.

(** The guard [amount > 0] is false of every amount that is [<= 0]. *)
Lemma leb_zero_not_ltb (x : float) :
  (x <=? 0)%float = true -> (0 <? x)%float = false.
Proof.
  rewrite ltb_spec, leb_spec.
  destruct (Prim2SF x) as [s|s| |s m e]; cbn; try discriminate;
    try reflexivity; destruct s; cbn; try discriminate; reflexivity.
Qed.

(** ** Summaries *)

Lemma calculate_summary_known (user_logs : list transaction) :
  calculate_summary (List.filter known_kind user_logs)
  = calculate_summary user_logs.
Proof.
  unfold calculate_summary.
  rewrite !sum_of_type_known; [reflexivity|..];
    unfold kinds; rewrite !elem_of_cons; tauto.
Qed.


(** An entry of a type outside the four kinds, wherever it stands in
    the logs, changes no component of the summary. *)
Lemma calculate_summary_unknown_entry (before after : list transaction)
    (entry : transaction) :
  type entry ∉ kinds ->
  calculate_summary (before ++ entry :: after)
  = calculate_summary (before ++ after).
Proof.
  intros Hun.
  pose proof (calculate_summary_known (before ++ entry :: after)) as H1.
  pose proof (calculate_summary_known (before ++ after)) as H2.
  rewrite <- H1, <- H2. f_equal.
  rewrite !List.filter_app. cbn [List.filter]. unfold known_kind at 2.
  rewrite bool_decide_eq_false_2 by exact Hun. reflexivity.
Qed.

(** The sums are rounded at each addition, in the order of the logs. *)
Example calculate_summary_rounds :
  calculate_summary [ Transaction "Earned" 0.1 "a" "2024-01-01 10:00:00";
                      Transaction "Bonus" 7 "b" "2024-01-01 10:00:01";
                      Transaction "Earned" 0.2 "c" "2024-01-01 10:00:02";
                      Transaction "Earned" 0.3 "d" "2024-01-01 10:00:03" ]
  = (0.6000000000000001, 0, 0, 0, 0.6000000000000001)%float
  /\ calculate_summary [ Transaction "Earned" 0.3 "d" "2024-01-01 10:00:03";
                         Transaction "Earned" 0.2 "c" "2024-01-01 10:00:02";
                         Transaction "Earned" 0.1 "a" "2024-01-01 10:00:00" ]
     = (0.6, 0, 0, 0, 0.6)%float.
Proof. split; reflexivity. Qed.

(** ** The ledger *)

Lemma elem_of_kinds (t_type : string) :
  t_type ∈ kinds ->
  t_type = "Earned" \/ t_type = "Spent" \/ t_type = "Given"
  \/ t_type = "Received".
Proof.
  unfold kinds. rewrite !elem_of_cons, elem_of_nil. tauto.
Qed.

Lemma log_transaction_some (now username t_type : string) (amount : float)
    (description : string) (w : world) (r : user) :
  users (data (session_state w)) !! username = Some r ->
  log_transaction now username t_type amount description w
  = Some (save_data
            (set_data
               (Document
                  (<[username :=
                       User (password r) (role r)
                            (logs r ++ [Transaction t_type amount description now])]>
                     (users (data (session_state w)))))
               w)).
Proof. intros Hr. unfold log_transaction. rewrite Hr. reflexivity. Qed.

(** C10. For a user of the store, [log_transaction] appends exactly one
    entry, at the end of that user's logs and after the entries that were
    there, in their order; the user's password hash and role and the
    records of all other users stay as they were. *)
Theorem log_transaction_appends (now username t_type : string) (amount : float)
    (description : string) (w : world) (r : user) :
  users (data (session_state w)) !! username = Some r ->
  exists w',
    log_transaction now username t_type amount description w = Some w'
    /\ users (data (session_state w')) !! username
       = Some (User (password r) (role r)
                    (logs r ++ [Transaction t_type amount description now]))
    /\ forall other, other <> username ->
         users (data (session_state w')) !! other
         = users (data (session_state w)) !! other.
Proof.
  intros Hr. rewrite (log_transaction_some _ _ _ _ _ _ _ Hr).
  eexists. split; [reflexivity|]. cbn. split.
  - apply lookup_insert_eq.
  - intros other Hne. apply lookup_insert_ne. congruence.
Qed.

Lemma log_transaction_appends_witness :
  users (data (session_state bootstrap_world)) !! "admin"
  = Some (User (hash_password "admin123") "admin" [])
  /\ exists w',
       log_transaction "2024-01-01 10:00:00" "admin" "Earned" 5 "job"
                       bootstrap_world = Some w'
       /\ users (data (session_state w')) !! "admin"
          = Some (User (hash_password "admin123") "admin"
                       ([] ++ [Transaction "Earned" 5 "job" "2024-01-01 10:00:00"]))
       /\ forall other, other <> "admin" ->
            users (data (session_state w')) !! other
            = users (data (session_state bootstrap_world)) !! other.
Proof.
  split; [reflexivity|].
  apply (log_transaction_appends "2024-01-01 10:00:00" "admin" "Earned" 5 "job"
           bootstrap_world (User (hash_password "admin123") "admin" [])).
  reflexivity.
Defined.

(** [log_transaction] itself does not look at the sign of the amount: the
    test is made by its caller, [submit_txn]. *)
Lemma log_transaction_unguarded (now username t_type : string) (amount : float)
    (description : string) (w : world) :
  is_Some (users (data (session_state w)) !! username) ->
  is_Some (log_transaction now username t_type amount description w).
Proof.
  intros [r Hr]. unfold log_transaction. rewrite Hr. eexists. reflexivity.
Qed.




(** The buckets on concrete kinds: only the bucket of the type moves. *)
Example bump_only_its_bucket :
  bump "Earned" "Given" 30 7 = 7%float
  /\ bump "Given" "Given" 30 7 = 37%float
  /\ signed "Given" 30 = (-30)%float /\ signed "Received" 30 = 30%float.
Proof. repeat split. Qed.

(** C3. With an amount <= 0 the submission is rejected, whatever the user
    name, type and description: the handler reports the error and the
    world (every user's logs, the rest of the document, the session and
    the data file) is the one it was given. *)
Theorem submit_txn_rejects (now username t_type : string) (amt : float)
    (description : string) (w : world) :
  (amt <=? 0)%float = true ->
  submit_txn now username t_type amt description w
  = Some (w, st_error "Amount must be greater than 0.").
Proof.
  intros Hle. unfold submit_txn.
  rewrite (leb_zero_not_ltb amt Hle). reflexivity.
Qed.

Lemma submit_txn_rejects_witness :
  (0 <=? 0)%float = true
  /\ submit_txn "2024-01-01 10:00:00" "admin" "Earned" 0 "nothing"
                bootstrap_world
     = Some (bootstrap_world, st_error "Amount must be greater than 0.").
Proof.
  split; [reflexivity|].
  apply (submit_txn_rejects "2024-01-01 10:00:00" "admin" "Earned" 0 "nothing"
           bootstrap_world).
  reflexivity.
Defined.

(** The scenario of a first run on which "alice" signs up, earns 100 and
    spends 30. *)
Example summary_after_two_transactions :
  (w0 ← init_session None;
   let w1 := fst (signup_button "alice" "pw1" w0) in
   w2 ← fst <$> submit_txn "2024-01-01 10:00:00" "alice" "Earned" 100 "job" w1;
   w3 ← fst <$> submit_txn "2024-01-01 10:00:01" "alice" "Spent" 30 "food" w2;
   r ← users (data (session_state w3)) !! "alice";
   Some (calculate_summary (logs r)))
  = Some (100, 30, 0, 0, 70)%float.
Proof. vm_compute. reflexivity. Qed.

Example submit_txn_negative :
  submit_txn "2024-01-01 10:00:00" "admin" "Spent" (-2.5) "refund"
             bootstrap_world
  = Some (bootstrap_world, st_error "Amount must be greater than 0.").
Proof. reflexivity. Qed.

(** ** Registration *)

(** C6. Signing up with the name of an existing user fails, and the
    world, hence the password hash, role and logs of that user, is
    exactly what it was. *)
Theorem signup_existing_fails (username pw : string) (w : world) (r : user) :
  users (data (session_state w)) !! username = Some r ->
  exists msg w',
    signup_button username pw w = (w', st_error msg)
    /\ w' = w
    /\ users (data (session_state w')) !! username = Some r.
Proof.
  intros Hr. unfold signup_button.
  destruct (bool_decide (strip username = "") || bool_decide (strip pw = "")).
  - eexists _, _. split; [reflexivity|]. split; [reflexivity|exact Hr].
  - rewrite bool_decide_eq_true_2 by (rewrite Hr; eexists; reflexivity).
    eexists _, _. split; [reflexivity|]. split; [reflexivity|exact Hr].
Qed.

Lemma signup_existing_fails_witness :
  users (data (session_state bootstrap_world)) !! "admin"
  = Some (User (hash_password "admin123") "admin" [])
  /\ exists msg w',
       signup_button "admin" "hunter2" bootstrap_world = (w', st_error msg)
       /\ w' = bootstrap_world
       /\ users (data (session_state w')) !! "admin"
          = Some (User (hash_password "admin123") "admin" []).
Proof.
  split; [reflexivity|].
  apply (signup_existing_fails "admin" "hunter2" bootstrap_world
           (User (hash_password "admin123") "admin" [])).
  reflexivity.
Defined.

(** C5, as the code has it.  Signing up fails exactly when the user name
    is empty once stripped of white space, or the password is, or the
    user name is already a key of the store (compared as is, hence case
    sensitively); a failure changes nothing.  On success the store gains
    the user with the hash of the password, the role "user" and no logs,
    nothing else in the store changes, the document is written to the
    data file at once, and the session is logged in as the new user. *)
Theorem signup_button_spec (username pw : string) (w : world) :
  match signup_button username pw w with
  | (w', st_error _) =>
      w' = w
      /\ (strip username = "" \/ strip pw = ""
          \/ is_Some (users (data (session_state w)) !! username))
  | (w', st_success _) =>
      strip username <> "" /\ strip pw <> ""
      /\ users (data (session_state w)) !! username = None
      /\ users (data (session_state w'))
         = <[username := User (hash_password pw) "user" []]>
             (users (data (session_state w)))
      /\ data_file w' = Some (document_to_json (data (session_state w')))
      /\ logged_in_user (session_state w') = Some username
  end.
Proof.
  unfold signup_button.
  destruct (decide (strip username = "")) as [Hu|Hu].
  { rewrite (bool_decide_eq_true_2 _ Hu). cbn. auto. }
  rewrite (bool_decide_eq_false_2 _ Hu).
  destruct (decide (strip pw = "")) as [Hp|Hp].
  { rewrite (bool_decide_eq_true_2 _ Hp). cbn. auto. }
  rewrite (bool_decide_eq_false_2 _ Hp). cbn [orb].
  destruct (users (data (session_state w)) !! username) as [r|] eqn:Hr.
  - rewrite bool_decide_eq_true_2 by (eexists; reflexivity).
    split; [reflexivity|]. right. right. eexists; reflexivity.
  - rewrite bool_decide_eq_false_2 by (intros [x Hx]; discriminate).
    cbn. repeat split; assumption.
Qed.

(** C5, as the specification has it, fails on a user name made of one
    space: it is not empty, the password is not empty, the name is not in
    the store, and the registration is refused all the same. *)
Lemma signup_blank_username_counterexample :
  ~ (signup_fails " " "pw1" bootstrap_world
     <-> (" " = "" \/ "pw1" = ""
          \/ is_Some (users (data (session_state bootstrap_world)) !! " "))).
Proof.
  intros [Hfails _].
  destruct Hfails as [H|[H|[r H]]].
  - exists "Username and password cannot be empty". reflexivity.
  - discriminate H.
  - discriminate H.
  - vm_compute in H. discriminate H.
Qed.

Example signup_case_sensitive :
  snd (signup_button "Admin" "pw1" bootstrap_world)
  = st_success "Account created! Logging you in...".
Proof. vm_compute. reflexivity. Qed.

(** ** Loading *)

(** C7. Without a data file [load_data] returns a document whose users
    are exactly the one entry "admin", with role "admin", no logs and the
    SHA-256 digest of "admin123" as password hash; logging in as "admin"
    with "admin123" succeeds on it. *)
Theorem load_data_default :
  exists d,
    load_data None = Some d
    /\ users d = {[ "admin" := User (hash_password "admin123") "admin" [] ]}
    /\ map_to_list (users d)
       = [("admin",
           User "240be518fabd2724ddb6f04eeb1da5967448d7e831c08c8fa822809f74c720a9"
                "admin" [])]
    /\ authenticate d "admin" "admin123" = true
    /\ login_button "admin" "admin123" (World (Session d None None) None)
       = (World (Session d (Some "admin") (Some "dashboard")) None,
          st_success "Welcome back, admin!").
Proof.
  exists default_document. split; [reflexivity|]. split; [reflexivity|].
  split; [vm_compute; reflexivity|].
  assert (Hauth : authenticate default_document "admin" "admin123" = true)
    by (vm_compute; reflexivity).
  split; [exact Hauth|].
  unfold login_button. cbn [data session_state]. rewrite Hauth. reflexivity.
Qed.

(** ** Authentication *)

Lemma authenticate_true_iff (d : document) (username pw : string) :
  authenticate d username pw = true
  <-> exists r, users d !! username = Some r /\ password r = hash_password pw.
Proof.
  unfold authenticate.
  destruct (users d !! username) as [[stored ro ls]|].
  - rewrite bool_decide_eq_true. cbn. split.
    + intros ->. eexists. split; reflexivity.
    + intros (r & [= <-] & Hpw). exact Hpw.
  - split; [discriminate|]. intros (r & Hr & _). discriminate Hr.
Qed.

Lemma login_succeeds_iff (username pw : string) (w : world) :
  login_succeeds username pw w
  <-> authenticate (data (session_state w)) username pw = true.
Proof.
  unfold login_succeeds, login_button.
  destruct (authenticate (data (session_state w)) username pw); cbn.
  - split; [reflexivity|]. intros _. eexists. reflexivity.
  - split; [intros [msg H]; discriminate H | discriminate].
Qed.

(** *** Digests are words of 64 hexadecimal digits *)

Lemma elem_of_words_over (alphabet : list ascii) (n : nat) (w : list ascii) :
  length w = n -> Forall (fun c => c ∈ alphabet) w ->
  w ∈ words_over alphabet n.
Proof.
  revert w. induction n as [|n IH]; intros w Hlen Hall.
  - destruct w; [|discriminate Hlen]. cbn. apply list_elem_of_here.
  - destruct w as [|c w]; [discriminate Hlen|].
    apply Forall_cons in Hall as [Hc Hall].
    cbn [words_over]. apply list_elem_of_bind. exists c. split; [|exact Hc].
    apply list_elem_of_fmap_2. apply IH; [|exact Hall].
    cbn in Hlen. congruence.
Qed.

Lemma length_words_over (alphabet : list ascii) (n : nat) :
  length (words_over alphabet (S n))
  = (length alphabet * length (words_over alphabet n))%nat.
Proof.
  cbn [words_over]. generalize (words_over alphabet n) as ws. intros ws.
  induction alphabet as [|c al IH]; [reflexivity|].
  rewrite bind_cons, length_app, length_fmap, IH. reflexivity.
Qed.

Lemma words_over_nonempty (alphabet : list ascii) (n : nat) :
  alphabet <> [] -> (0 < length (words_over alphabet n))%nat.
Proof.
  intros Hne. induction n as [|n IH]; [cbn; lia|].
  rewrite length_words_over. destruct alphabet; [congruence|]. cbn. lia.
Qed.

Lemma NoDup_words_over (alphabet : list ascii) (n : nat) :
  NoDup alphabet -> NoDup (words_over alphabet n).
Proof.
  intros Hal. induction n as [|n IH].
  - cbn. apply NoDup_singleton.
  - cbn [words_over]. apply NoDup_bind; [| |exact Hal].
    + intros c1 c2 w _ _ H1 H2.
      apply list_elem_of_fmap in H1 as (w1 & -> & _).
      apply list_elem_of_fmap in H2 as (w2 & [= -> _] & _). reflexivity.
    + intros c _. apply NoDup_fmap_2; [|exact IH].
      intros w1 w2 [= ->]. reflexivity.
Qed.

Lemma hex_digit_in_alphabet (d : Z) :
  SHA256.hex_digit d ∈ SHA256.hex_alphabet.
Proof.
  unfold SHA256.hex_digit. apply list_elem_of_In, nth_In.
  change (length SHA256.hex_alphabet) with 16%nat.
  pose proof (Z.mod_pos_bound d 16 eq_refl). lia.
Qed.

Lemma hex8_in_alphabet (x : Z) :
  Forall (fun c => c ∈ SHA256.hex_alphabet) (SHA256.hex8 x).
Proof.
  unfold SHA256.hex8. apply Forall_forall. intros c Hc.
  apply list_elem_of_In, in_map_iff in Hc.
  destruct Hc as (i & <- & _). apply hex_digit_in_alphabet.
Qed.

Lemma hex_of_regs_word (s : SHA256.regs) :
  SHA256.hex_of_regs s ∈ words_over SHA256.hex_alphabet 64.
Proof.
  apply elem_of_words_over; [reflexivity|].
  unfold SHA256.hex_of_regs. cbn [flat_map].
  repeat (apply Forall_app; split); try apply hex8_in_alphabet.
  apply Forall_nil_2.
Qed.

(** More words than digests: two of them share a digest. *)
Lemma digest_pigeonhole (n : nat) (f : list ascii -> list ascii) :
  (forall w, f w ∈ words_over SHA256.hex_alphabet n) ->
  ~ (forall x y,
       x ∈ words_over SHA256.hex_alphabet (S n) ->
       y ∈ words_over SHA256.hex_alphabet (S n) ->
       x <> y -> f x <> f y).
Proof.
  intros Hran Hinj.
  assert (Hal : NoDup SHA256.hex_alphabet).
  { exact (bool_decide_unpack (NoDup SHA256.hex_alphabet) I). }
  assert (Hnd : NoDup (f <$> words_over SHA256.hex_alphabet (S n))).
  { apply NoDup_fmap_2_strong; [|apply NoDup_words_over, Hal].
    intros x y Hx Hy Hxy. destruct (decide (x = y)) as [|Hne]; [assumption|].
    exfalso. exact (Hinj x y Hx Hy Hne Hxy). }
  apply NoDup_submseteq with (k := words_over SHA256.hex_alphabet n) in Hnd.
  - apply submseteq_length in Hnd.
    rewrite length_fmap, length_words_over in Hnd.
    change (length SHA256.hex_alphabet) with 16%nat in Hnd.
    pose proof (words_over_nonempty SHA256.hex_alphabet n) as Hpos.
    assert (0 < length (words_over SHA256.hex_alphabet n))%nat
      by (apply Hpos; discriminate).
    lia.
  - intros y Hy. apply list_elem_of_fmap in Hy as (x & -> & _). apply Hran.
Qed.

(** SHA-256 maps the passwords of 65 hexadecimal digits, of which there
    are 16 times as many as digests, to digests: it is not injective. *)
Lemma hash_password_collides :
  ~ (forall pw pw' : string,
       String.length pw = 65%nat -> String.length pw' = 65%nat ->
       pw' <> pw -> hash_password pw' <> hash_password pw).
Proof.
  intros Hinj.
  apply (digest_pigeonhole 64
           (fun w => list_ascii_of_string
                       (hash_password (string_of_list_ascii w)))).
  - intros w. unfold hash_password, SHA256.hexdigest.
    rewrite list_ascii_of_string_of_list_ascii. apply hex_of_regs_word.
  - intros x y Hx Hy Hne Heq.
    assert (Hlen : forall w, w ∈ words_over SHA256.hex_alphabet 65 ->
                     String.length (string_of_list_ascii w) = 65%nat).
    { clear. generalize 65%nat as n. intros n w. revert w.
      induction n as [|n IH]; intros w Hw.
      - cbn in Hw. apply list_elem_of_singleton in Hw as ->. reflexivity.
      - cbn [words_over] in Hw. apply list_elem_of_bind in Hw as (c & Hw & _).
        apply list_elem_of_fmap in Hw as (w' & -> & Hw').
        cbn. f_equal. apply IH, Hw'. }
    apply (Hinj (string_of_list_ascii y) (string_of_list_ascii x)
             (Hlen y Hy) (Hlen x Hx)).
    + intros E. apply Hne.
      rewrite <- (list_ascii_of_string_of_list_ascii x),
              <- (list_ascii_of_string_of_list_ascii y), E.
      reflexivity.
    + apply (f_equal string_of_list_ascii) in Heq.
      rewrite !string_of_list_ascii_of_string in Heq. exact Heq.
Qed.

(** A password whose digest differs from the stored one is refused. *)
Lemma authenticate_false_digest (d : document) (username pw : string)
    (r : user) :
  users d !! username = Some r ->
  hash_password pw <> password r ->
  authenticate d username pw = false.
Proof.
  intros Hr Hne. apply not_true_is_false. intros Hauth.
  apply authenticate_true_iff in Hauth as (r' & Hr' & Hpw).
  rewrite Hr in Hr'. injection Hr' as <-. apply Hne. symmetry. exact Hpw.
Qed.

Example authenticate_one_character_changed :
  authenticate default_document "admin" "admin124" = false
  /\ authenticate default_document "admin" "Admin123" = false
  /\ authenticate default_document "Admin" "admin123" = false.
Proof. vm_compute. repeat split. Qed.

(** ** The script, run after run *)

Lemma kind_name_in_kinds (k : kind) : kind_name k ∈ kinds.
Proof. destruct k; unfold kinds; cbn; repeat constructor. Qed.

Lemma main_view_cases (w : world) (v : view) :
  main w = Some v ->
  match v with
  | show_login_page => logged_in_user (session_state w) = None
  | show_admin_dashboard =>
      exists username r,
        logged_in_user (session_state w) = Some username
        /\ users (data (session_state w)) !! username = Some r
        /\ role r = "admin"
  | show_user_dashboard username =>
      exists r,
        logged_in_user (session_state w) = Some username
        /\ users (data (session_state w)) !! username = Some r
        /\ role r <> "admin"
        /\ page (session_state w) <> Some "make_transaction"
  | show_make_transaction_page username =>
      exists r,
        logged_in_user (session_state w) = Some username
        /\ users (data (session_state w)) !! username = Some r
        /\ role r <> "admin"
        /\ page (session_state w) = Some "make_transaction"
  end.
Proof.
  unfold main. intros Hm.
  destruct (logged_in_user (session_state w)) as [u|];
    [|injection Hm as <-; reflexivity].
  destruct (users (data (session_state w)) !! u) as [r|] eqn:Hr;
    [|discriminate Hm].
  destruct (decide (role r = "admin")) as [Hrole|Hrole].
  - rewrite (bool_decide_eq_true_2 _ Hrole) in Hm. injection Hm as <-.
    exists u, r. auto.
  - rewrite (bool_decide_eq_false_2 _ Hrole) in Hm.
    destruct (decide (page (session_state w) = Some "make_transaction"))
      as [Hp|Hp].
    + rewrite (bool_decide_eq_true_2 _ Hp) in Hm. injection Hm as <-.
      exists r. auto.
    + rewrite (bool_decide_eq_false_2 _ Hp) in Hm. injection Hm as <-.
      exists r. auto.
Qed.

Lemma login_button_change (username pw : string) (w : world) :
  change w (fst (login_button username pw w)).
Proof.
  unfold login_button.
  destruct (authenticate (data (session_state w)) username pw) eqn:Hauth.
  - apply change_session; [reflexivity..|]. right. right. exists username.
    split; [reflexivity|].
    apply authenticate_true_iff in Hauth as (r & Hr & _). eauto.
  - apply change_session; [reflexivity..|]. right. left. reflexivity.
Qed.

Lemma signup_button_change (username pw : string) (w : world) :
  logged_in_user (session_state w) = None ->
  change w (fst (signup_button username pw w)).
Proof.
  intros Hout. unfold signup_button.
  destruct (bool_decide (strip username = "") || bool_decide (strip pw = "")).
  { apply change_session; [reflexivity..|]. right. left. reflexivity. }
  destruct (users (data (session_state w)) !! username) as [r|] eqn:Hr.
  - rewrite bool_decide_eq_true_2 by (eexists; reflexivity).
    apply change_session; [reflexivity..|]. right. left. reflexivity.
  - rewrite bool_decide_eq_false_2 by (intros [x Hx]; discriminate).
    apply (change_signup _ _ username pw); try reflexivity; assumption.
Qed.

Lemma submit_txn_change (now username : string) (k : kind) (amt : float)
    (description : string) (w : world) (r : user) :
  logged_in_user (session_state w) = Some username ->
  users (data (session_state w)) !! username = Some r ->
  role r <> "admin" ->
  exists w' msg,
    submit_txn now username (kind_name k) amt description w = Some (w', msg)
    /\ change w w'.
Proof.
  intros Hin Hr Hrole. unfold submit_txn.
  destruct (0 <? amt)%float eqn:Hpos.
  - rewrite (log_transaction_some _ _ _ _ _ _ _ Hr). cbn.
    eexists _, _. split; [reflexivity|].
    apply (change_submit _ _ username r
             (Transaction (kind_name k) amt description now));
      try reflexivity; try assumption.
    apply kind_name_in_kinds.
  - eexists _, _. split; [reflexivity|].
    apply change_session; [reflexivity..|]. right. left. reflexivity.
Qed.

Lemma run_script_change (e : event) (w w' : world) :
  run_script e w = ran w' -> change w w'.
Proof.
  unfold run_script. intros Hrun.
  destruct (main w) as [v|] eqn:Hm; [|discriminate Hrun].
  pose proof (main_view_cases _ _ Hm) as Hv.
  destruct v as [| |u|u];
    destruct e as [lu lp|su sp| | |now k amt desc|]; try discriminate Hrun.
  - injection Hrun as <-. apply login_button_change.
  - injection Hrun as <-. apply signup_button_change. exact Hv.
  - injection Hrun as <-. apply change_session; [reflexivity..|]. left.
    reflexivity.
  - injection Hrun as <-. apply change_session; [reflexivity..|]. left.
    reflexivity.
  - injection Hrun as <-. apply change_session; [reflexivity..|]. right. left.
    reflexivity.
  - injection Hrun as <-. apply change_session; [reflexivity..|]. left.
    reflexivity.
  - destruct Hv as (r & Hin & Hr & Hrole & _).
    destruct (submit_txn_change now u k amt desc w r
                Hin Hr Hrole) as (w1 & msg & Hsub & Hch).
    rewrite Hsub in Hrun. injection Hrun as <-. exact Hch.
  - injection Hrun as <-. apply change_session; [reflexivity..|]. right. left.
    reflexivity.
Qed.

Lemma reaches_invariant (P : world -> Prop) :
  (forall w w', change w w' -> P w -> P w') ->
  (forall w file, P w -> P (World (session_state w) file)) ->
  forall w w', reaches w w' -> P w -> P w'.
Proof.
  intros Hstep Hfile w w' Hreach.
  induction Hreach as [w|w e w1 w2 Hrun _ IH|w file w2 _ IH].
  - trivial.
  - intros Hw. apply IH. apply (Hstep w w1); [|exact Hw].
    exact (run_script_change e w w1 Hrun).
  - intros Hw. apply IH, Hfile, Hw.
Qed.

Lemma change_consistent (w w' : world) :
  change w w' -> session_consistent w -> session_consistent w'.
Proof.
  unfold session_consistent.
  intros [w0 w1 Hd Hf Hlu|w0 w1 u pw Hout Hnew Hus Hf Hlu
          |w0 w1 u r entry Hin Hr Hrole Hpos Hk Hus Hf Hlu] Hc.
  - rewrite Hd. destruct Hlu as [->|[->|(u & -> & Hu)]]; [exact I|exact Hc|exact Hu].
  - rewrite Hlu, Hus, lookup_insert_eq. eexists; reflexivity.
  - rewrite Hlu, Hus, lookup_insert_eq. eexists; reflexivity.
Qed.

Lemma consistent_not_raised (e : event) (w : world) :
  session_consistent w -> run_script e w <> raised /\ main w <> None.
Proof.
  unfold session_consistent. intros Hc.
  assert (Hmain : main w <> None).
  { unfold main. destruct (logged_in_user (session_state w)) as [u|];
      [|discriminate].
    destruct Hc as [r Hr]. rewrite Hr.
    destruct (bool_decide (role r = "admin")); [discriminate|].
    destruct (bool_decide _); discriminate. }
  split; [|exact Hmain].
  unfold run_script. destruct (main w) as [v|] eqn:Hm; [|congruence].
  pose proof (main_view_cases _ _ Hm) as Hv.
  destruct v as [| |u|u];
    destruct e as [lu lp|su sp| | |now k amt desc|]; try discriminate.
  destruct Hv as (r & Hin & Hr & Hrole & _).
  destruct (submit_txn_change now u k amt desc w r
              Hin Hr Hrole) as (w1 & msg & Hsub & _).
  rewrite Hsub. discriminate.
Qed.

(** X1. In a session whose logged-in user, if any, is a user of the
    store (as at the start of a session, where nobody is logged in),
    whatever buttons are pressed afterwards, the script never raises: the
    logged-in user is always a user of the store, so the main part finds
    the role and the handlers find the logs. *)
Theorem script_never_raises (w0 w : world) (e : event) :
  session_consistent w0 ->
  reaches w0 w ->
  session_consistent w /\ main w <> None /\ run_script e w <> raised.
Proof.
  intros Hstart Hreach.
  assert (Hc : session_consistent w).
  { exact (reaches_invariant session_consistent change_consistent
             (fun _ _ H => H) w0 w Hreach Hstart). }
  split; [exact Hc|]. split; apply (consistent_not_raised e w Hc).
Qed.

Lemma run_events_reaches (es : list event) (w w' : world) :
  run_events es w = Some w' -> reaches w w'.
Proof.
  revert w. induction es as [|e es IH]; intros w Hrun.
  - injection Hrun as <-. apply reaches_refl.
  - cbn [run_events] in Hrun. destruct (run_script e w) as [w1| |] eqn:He;
      try discriminate Hrun.
    exact (reaches_step w e w1 w' He (IH w1 Hrun)).
Qed.

Lemma demo_world_reached : reaches bootstrap_world demo_world.
Proof. apply (run_events_reaches demo_events). vm_compute. reflexivity. Qed.

Example demo_world_state :
  logged_in_user (session_state demo_world) = Some "admin"
  /\ main demo_world = Some show_admin_dashboard
  /\ (r ← users (data (session_state demo_world)) !! "alice";
      Some (calculate_summary (logs r)))
     = Some (100, 0, 0, 0, 100)%float.
Proof. vm_compute. repeat split. Qed.

Lemma script_never_raises_witness :
  session_consistent bootstrap_world
  /\ reaches bootstrap_world demo_world
  /\ session_consistent demo_world /\ main demo_world <> None
     /\ run_script click_logout demo_world <> raised.
Proof.
  split; [exact I|]. split; [exact demo_world_reached|].
  apply (script_never_raises bootstrap_world demo_world click_logout).
  - exact I.
  - exact demo_world_reached.
Defined.

(** A record that continues another: the same password hash and role,
    and the logs of the other followed by further entries. *)
Lemma change_users_grow (w w' : world) (username : string) (r : user) :
  change w w' ->
  users (data (session_state w)) !! username = Some r ->
  exists r' more,
    users (data (session_state w')) !! username = Some r'
    /\ password r' = password r /\ role r' = role r
    /\ logs r' = (logs r ++ more)%list.
Proof.
  intros [w0 w1 Hd Hf Hlu|w0 w1 u pw Hout Hnew Hus Hf Hlu
          |w0 w1 u r0 entry Hin Hr0 Hrole Hpos Hk Hus Hf Hlu] Hr.
  - exists r, []. rewrite Hd, app_nil_r. auto.
  - exists r, []. rewrite Hus, app_nil_r.
    rewrite lookup_insert_ne by congruence. auto.
  - rewrite Hus. destruct (decide (u = username)) as [->|Hne].
    + rewrite Hr0 in Hr. injection Hr as ->.
      exists (User (password r) (role r) (logs r ++ [entry])), [entry].
      rewrite lookup_insert_eq. auto.
    + exists r, []. rewrite lookup_insert_ne, app_nil_r by exact Hne. auto.
Qed.

Lemma reaches_users_grow (w w' : world) (username : string) (r : user) :
  reaches w w' ->
  users (data (session_state w)) !! username = Some r ->
  exists r' more,
    users (data (session_state w')) !! username = Some r'
    /\ password r' = password r /\ role r' = role r
    /\ logs r' = (logs r ++ more)%list.
Proof.
  intros Hreach. revert r.
  induction Hreach as [w|w e w1 w2 Hrun _ IH|w file w2 _ IH]; intros r Hr.
  - exists r, []. rewrite app_nil_r. auto.
  - destruct (change_users_grow w w1 username r
                (run_script_change e w w1 Hrun) Hr)
      as (r1 & m1 & Hr1 & Hp1 & Hro1 & Hl1).
    destruct (IH r1 Hr1) as (r2 & m2 & Hr2 & Hp2 & Hro2 & Hl2).
    exists r2, (m1 ++ m2)%list. split; [exact Hr2|].
    split; [congruence|]. split; [congruence|].
    rewrite Hl2, Hl1, <- app_assoc. reflexivity.
  - exact (IH r Hr).
Qed.

(** X3. Whatever buttons are pressed, no user is ever removed, no
    password hash or role is ever changed, and no log entry is ever
    removed, changed or reordered: a user's logs only grow at the end. *)
Theorem logs_append_only (w w' : world) (username : string) (r : user) :
  reaches w w' ->
  users (data (session_state w)) !! username = Some r ->
  exists r' more,
    users (data (session_state w')) !! username = Some r'
    /\ password r' = password r /\ role r' = role r
    /\ logs r' = (logs r ++ more)%list.
Proof. apply reaches_users_grow. Qed.

Lemma logs_append_only_witness :
  reaches bootstrap_world demo_world
  /\ users (data (session_state bootstrap_world)) !! "admin"
     = Some (User (hash_password "admin123") "admin" [])
  /\ exists r' more,
       users (data (session_state demo_world)) !! "admin" = Some r'
       /\ password r' = hash_password "admin123" /\ role r' = "admin"
       /\ logs r' = ([] ++ more)%list.
Proof.
  split; [exact demo_world_reached|]. split; [reflexivity|].
  apply (logs_append_only bootstrap_world demo_world "admin"
           (User (hash_password "admin123") "admin" [])).
  - exact demo_world_reached.
  - reflexivity.
Defined.

Lemma change_logs_valid (w w' : world) :
  change w w' -> logs_valid w -> logs_valid w'.
Proof.
  unfold logs_valid.
  intros [w0 w1 Hd Hf Hlu|w0 w1 u pw Hout Hnew Hus Hf Hlu
          |w0 w1 u r0 entry Hin Hr0 Hrole Hpos Hk Hus Hf Hlu] Hv
         username r log Hr Hlog.
  - rewrite Hd in Hr. exact (Hv username r log Hr Hlog).
  - rewrite Hus in Hr. destruct (decide (u = username)) as [->|Hne].
    + rewrite lookup_insert_eq in Hr. injection Hr as <-. destruct Hlog.
    + rewrite lookup_insert_ne in Hr by exact Hne.
      exact (Hv username r log Hr Hlog).
  - rewrite Hus in Hr. destruct (decide (u = username)) as [->|Hne].
    + rewrite lookup_insert_eq in Hr. injection Hr as <-. cbn [logs] in Hlog.
      apply in_app_or in Hlog as [Hold|[<-|[]]].
      * exact (Hv username r0 log Hr0 Hold).
      * split; assumption.
    + rewrite lookup_insert_ne in Hr by exact Hne.
      exact (Hv username r log Hr Hlog).
Qed.

Lemma logs_valid_bootstrap : logs_valid bootstrap_world.
Proof.
  intros username r log Hr Hlog. cbn in Hr.
  apply lookup_singleton_Some in Hr as [_ <-]. destruct Hlog.
Qed.

(** X4. Through the buttons only positive amounts of the four kinds are
    ever logged: if every entry of the store has a positive amount and a
    type among the four kinds, so has every entry of any world reached
    from it. *)
Theorem logged_entries_stay_valid (w w' : world) :
  logs_valid w -> reaches w w' -> logs_valid w'.
Proof.
  intros Hv Hreach.
  exact (reaches_invariant logs_valid change_logs_valid (fun _ _ H => H)
           w w' Hreach Hv).
Qed.

Lemma logged_entries_stay_valid_witness :
  logs_valid bootstrap_world
  /\ reaches bootstrap_world demo_world
  /\ logs_valid demo_world.
Proof.
  split; [exact logs_valid_bootstrap|]. split; [exact demo_world_reached|].
  apply (logged_entries_stay_valid bootstrap_world demo_world).
  - exact logs_valid_bootstrap.
  - exact demo_world_reached.
Defined.

Lemma change_other_user (w w' : world) (username : string) (r : user) :
  change w w' ->
  users (data (session_state w)) !! username = Some r ->
  logged_in_user (session_state w) <> Some username ->
  users (data (session_state w')) !! username = Some r.
Proof.
  intros [w0 w1 Hd Hf Hlu|w0 w1 u pw Hout Hnew Hus Hf Hlu
          |w0 w1 u r0 entry Hin Hr0 Hrole Hpos Hk Hus Hf Hlu] Hr Hother.
  - rewrite Hd. exact Hr.
  - rewrite Hus, lookup_insert_ne by congruence. exact Hr.
  - rewrite Hus, lookup_insert_ne by congruence. exact Hr.
Qed.

(** X5. One run of the script changes the record of nobody but the
    logged-in user: the password hash, role and logs of every other user
    of the store are afterwards what they were. *)
Theorem other_users_untouched (e : event) (w w' : world) (username : string)
    (r : user) :
  run_script e w = ran w' ->
  users (data (session_state w)) !! username = Some r ->
  logged_in_user (session_state w) <> Some username ->
  users (data (session_state w')) !! username = Some r.
Proof.
  intros Hrun. apply change_other_user. exact (run_script_change e w w' Hrun).
Qed.

Lemma change_admin_record (w w' : world) (username : string) (r : user) :
  change w w' ->
  role r = "admin" ->
  users (data (session_state w)) !! username = Some r
  <-> users (data (session_state w')) !! username = Some r.
Proof.
  intros [w0 w1 Hd Hf Hlu|w0 w1 u pw Hout Hnew Hus Hf Hlu
          |w0 w1 u r0 entry Hin Hr0 Hrole Hpos Hk Hus Hf Hlu] Hadmin.
  - rewrite Hd. reflexivity.
  - rewrite Hus. destruct (decide (u = username)) as [->|Hne].
    + rewrite lookup_insert_eq, Hnew. split; [discriminate|].
      intros [= <-]. discriminate Hadmin.
    + rewrite lookup_insert_ne by exact Hne. reflexivity.
  - rewrite Hus. destruct (decide (u = username)) as [->|Hne].
    + rewrite lookup_insert_eq, Hr0. split.
      * intros [= <-]. contradiction.
      * intros [= <-]. cbn in Hadmin. contradiction.
    + rewrite lookup_insert_ne by exact Hne. reflexivity.
Qed.

Lemma reaches_admin_record (w w' : world) (username : string) (r : user) :
  reaches w w' ->
  role r = "admin" ->
  users (data (session_state w)) !! username = Some r
  <-> users (data (session_state w')) !! username = Some r.
Proof.
  intros Hreach Hadmin.
  induction Hreach as [w|w e w1 w2 Hrun _ IH|w file w2 _ IH].
  - reflexivity.
  - rewrite <- IH.
    exact (change_admin_record w w1 username r
             (run_script_change e w w1 Hrun) Hadmin).
  - exact IH.
Qed.

(** X6. The buttons neither create nor alter an administrator: a record
    with the role "admin" is in a world reached from another exactly when
    it was in that other world, under the same name and unchanged. *)
Theorem admins_never_change (w w' : world) (username : string) (r : user) :
  reaches w w' ->
  role r = "admin" ->
  users (data (session_state w)) !! username = Some r
  <-> users (data (session_state w')) !! username = Some r.
Proof. apply reaches_admin_record. Qed.

Lemma admins_never_change_witness :
  reaches bootstrap_world demo_world
  /\ role (User (hash_password "admin123") "admin" []) = "admin"
  /\ (users (data (session_state bootstrap_world)) !! "admin"
      = Some (User (hash_password "admin123") "admin" [])
      <-> users (data (session_state demo_world)) !! "admin"
          = Some (User (hash_password "admin123") "admin" [])).
Proof.
  split; [exact demo_world_reached|]. split; [reflexivity|].
  apply (admins_never_change bootstrap_world demo_world "admin"
           (User (hash_password "admin123") "admin" [])).
  - exact demo_world_reached.
  - reflexivity.
Defined.

(** X7. After a first run, whatever buttons are pressed, the
    administrator is the user "admin" and nobody else, its record is the
    default one, so that "admin" with the password "admin123" is always
    accepted, and the administrator's overview is shown to "admin"
    only. *)
Theorem default_admin_stays (w : world) :
  reaches bootstrap_world w ->
  users (data (session_state w)) !! "admin"
  = Some (User (hash_password "admin123") "admin" [])
  /\ (forall username r,
        users (data (session_state w)) !! username = Some r ->
        role r = "admin" -> username = "admin")
  /\ authenticate (data (session_state w)) "admin" "admin123" = true
  /\ (main w = Some show_admin_dashboard ->
      logged_in_user (session_state w) = Some "admin").
Proof.
  intros Hreach.
  assert (Hadmin : users (data (session_state w)) !! "admin"
                   = Some (User (hash_password "admin123") "admin" [])).
  { apply (reaches_admin_record bootstrap_world w "admin" _ Hreach);
      reflexivity. }
  assert (Honly : forall username r,
            users (data (session_state w)) !! username = Some r ->
            role r = "admin" -> username = "admin").
  { intros username r Hr Hrole.
    apply (reaches_admin_record bootstrap_world w username r Hreach Hrole)
      in Hr.
    cbn in Hr. apply lookup_singleton_Some in Hr as [<- _]. reflexivity. }
  split; [exact Hadmin|]. split; [exact Honly|]. split.
  - apply authenticate_true_iff. eexists. split; [exact Hadmin|reflexivity].
  - intros Hm. apply main_view_cases in Hm as (u & r & Hin & Hr & Hrole).
    rewrite Hin. f_equal. exact (Honly u r Hr Hrole).
Qed.

Lemma default_admin_stays_witness :
  reaches bootstrap_world demo_world
  /\ users (data (session_state demo_world)) !! "admin"
     = Some (User (hash_password "admin123") "admin" [])
  /\ (forall username r,
        users (data (session_state demo_world)) !! username = Some r ->
        role r = "admin" -> username = "admin")
  /\ authenticate (data (session_state demo_world)) "admin" "admin123" = true
  /\ (main demo_world = Some show_admin_dashboard ->
      logged_in_user (session_state demo_world) = Some "admin").
Proof.
  split; [exact demo_world_reached|].
  apply (default_admin_stays demo_world). exact demo_world_reached.
Defined.

Lemma other_users_untouched_witness :
  run_script (click_submit "2024-01-01 10:00:00" Earned 100 "job") form_world
  = ran paid_world
  /\ users (data (session_state form_world)) !! "admin"
     = Some (User (hash_password "admin123") "admin" [])
  /\ logged_in_user (session_state form_world) <> Some "admin"
  /\ users (data (session_state paid_world)) !! "admin"
     = Some (User (hash_password "admin123") "admin" []).
Proof.
  split; [vm_compute; reflexivity|]. split; [vm_compute; reflexivity|].
  split; [vm_compute; discriminate|].
  apply (other_users_untouched
           (click_submit "2024-01-01 10:00:00" Earned 100 "job")
           form_world paid_world "admin"
           (User (hash_password "admin123") "admin" [])).
  - vm_compute. reflexivity.
  - vm_compute. reflexivity.
  - vm_compute. discriminate.
Defined.

Lemma reaches_authenticate (w w' : world) (username pw : string) :
  authenticate (data (session_state w)) username pw = true ->
  reaches w w' ->
  authenticate (data (session_state w')) username pw = true.
Proof.
  intros Hauth Hreach.
  apply authenticate_true_iff in Hauth as (r & Hr & Hpw).
  destruct (reaches_users_grow w w' username r Hreach Hr)
    as (r' & more & Hr' & Hpw' & _).
  apply authenticate_true_iff. exists r'. split; [exact Hr'|congruence].
Qed.

(** X8. Credentials that are accepted stay accepted: no button changes
    or removes a password, so a user name and password that authenticate
    in a world authenticate in every world reached from it. *)
Theorem credentials_stay_valid (w w' : world) (username pw : string) :
  authenticate (data (session_state w)) username pw = true ->
  reaches w w' ->
  authenticate (data (session_state w')) username pw = true.
Proof. apply reaches_authenticate. Qed.

Lemma credentials_stay_valid_witness :
  authenticate (data (session_state form_world)) "alice" "pw1" = true
  /\ reaches form_world demo_world
  /\ authenticate (data (session_state demo_world)) "alice" "pw1" = true.
Proof.
  assert (Hreach : reaches form_world demo_world).
  { apply (run_events_reaches (skipn 2 demo_events)). vm_compute.
    reflexivity. }
  split; [vm_compute; reflexivity|]. split; [exact Hreach|].
  apply (credentials_stay_valid form_world demo_world "alice" "pw1").
  - vm_compute. reflexivity.
  - exact Hreach.
Defined.

Lemma signup_button_logged_in (username pw other : string) (w : world) :
  logged_in_user (session_state w) = None ->
  logged_in_user (session_state (fst (signup_button username pw w)))
  = Some other ->
  other = username
  /\ users (data (session_state (fst (signup_button username pw w))))
       !! username
     = Some (User (hash_password pw) "user" []).
Proof.
  intros Hout. unfold signup_button.
  destruct (bool_decide (strip username = "") || bool_decide (strip pw = "")).
  { cbn. rewrite Hout. discriminate. }
  destruct (bool_decide (is_Some (users (data (session_state w)) !! username))).
  { cbn. rewrite Hout. discriminate. }
  cbn. intros [= <-]. split; [reflexivity|]. apply lookup_insert_eq.
Qed.

(** X9. Signing up opens an account for good: when the "Sign Up" button
    logs the new user in, the user is in the store with the role "user",
    and the user name and password given are accepted by the login in
    every world reached afterwards. *)
Theorem signup_then_login (username pw : string) (w w1 w2 : world) :
  run_script (click_signup username pw) w = ran w1 ->
  logged_in_user (session_state w1) = Some username ->
  reaches w1 w2 ->
  authenticate (data (session_state w2)) username pw = true
  /\ exists r,
       users (data (session_state w2)) !! username = Some r
       /\ role r = "user".
Proof.
  unfold run_script. intros Hrun Hin Hreach.
  destruct (main w) as [v|] eqn:Hm; [|discriminate Hrun].
  pose proof (main_view_cases _ _ Hm) as Hv.
  destruct v as [| |u|u]; try discriminate Hrun.
  injection Hrun as <-.
  destruct (signup_button_logged_in username pw username w Hv Hin)
    as [_ Hr1].
  destruct (reaches_users_grow _ w2 username _ Hreach Hr1)
    as (r2 & more & Hr2 & Hpw2 & Hrole2 & _).
  split.
  - apply authenticate_true_iff. exists r2. split; [exact Hr2|exact Hpw2].
  - exists r2. split; [exact Hr2|exact Hrole2].
Qed.

Lemma signup_then_login_witness :
  run_script (click_signup "alice" "pw1") bootstrap_world
  = ran (fst (signup_button "alice" "pw1" bootstrap_world))
  /\ logged_in_user
       (session_state (fst (signup_button "alice" "pw1" bootstrap_world)))
     = Some "alice"
  /\ reaches (fst (signup_button "alice" "pw1" bootstrap_world)) demo_world
  /\ authenticate (data (session_state demo_world)) "alice" "pw1" = true
  /\ exists r,
       users (data (session_state demo_world)) !! "alice" = Some r
       /\ role r = "user".
Proof.
  assert (Hreach : reaches (fst (signup_button "alice" "pw1" bootstrap_world))
                           demo_world).
  { apply (run_events_reaches (skipn 1 demo_events)). vm_compute.
    reflexivity. }
  split; [reflexivity|]. split; [vm_compute; reflexivity|].
  split; [exact Hreach|].
  apply (signup_then_login "alice" "pw1" bootstrap_world
           (fst (signup_button "alice" "pw1" bootstrap_world)) demo_world).
  - reflexivity.
  - vm_compute. reflexivity.
  - exact Hreach.
Defined.

(** X10. Only the buttons "Sign Up" and "Submit Transaction" write: a
    run in which any other button is pressed (login, logout, opening or
    leaving the form) leaves the document of the session and the data
    file as they were. *)
Theorem only_signup_and_submit_write (e : event) (w w' : world) :
  run_script e w = ran w' ->
  match e with
  | click_signup _ _ | click_submit _ _ _ _ => True
  | _ =>
      data (session_state w') = data (session_state w)
      /\ data_file w' = data_file w
  end.
Proof.
  unfold run_script. intros Hrun.
  destruct (main w) as [v|] eqn:Hm; [|discriminate Hrun].
  destruct v as [| |u|u];
    destruct e as [lu lp|su sp| | |now k amt desc|]; try discriminate Hrun;
    try exact I; injection Hrun as <-; try (split; reflexivity).
  unfold login_button.
  destruct (authenticate (data (session_state w)) lu lp); split; reflexivity.
Qed.

Lemma only_signup_and_submit_write_witness :
  run_script (click_login "admin" "admin123") bootstrap_world
  = ran (fst (login_button "admin" "admin123" bootstrap_world))
  /\ data (session_state (fst (login_button "admin" "admin123" bootstrap_world)))
     = data (session_state bootstrap_world)
  /\ data_file (fst (login_button "admin" "admin123" bootstrap_world))
     = data_file bootstrap_world.
Proof.
  split; [reflexivity|].
  apply (only_signup_and_submit_write (click_login "admin" "admin123")
           bootstrap_world
           (fst (login_button "admin" "admin123" bootstrap_world))).
  reflexivity.
Defined.

(** ** Password hashes *)

(** X17. Whatever the password, [hash_password] returns 64 characters,
    each a hexadecimal digit in lower case: every password hash stored
    by the sign-up, and compared by the login, has this form. *)
Theorem hash_password_hex (pw : string) :
  String.length (hash_password pw) = 64%nat
  /\ Forall (fun c => c ∈ SHA256.hex_alphabet)
            (list_ascii_of_string (hash_password pw)).
Proof.
  unfold hash_password, SHA256.hexdigest. split.
  - rewrite <- (list_ascii_of_string_of_list_ascii
                  (SHA256.hex_of_regs _)) at 1.
    rewrite string_of_list_ascii_of_string.
    generalize (SHA256.digest (SHA256.bytes_of_string pw)). intros s.
    assert (Hlen : forall l : list ascii,
              String.length (string_of_list_ascii l) = length l).
    { induction l as [|c l IH]; [reflexivity|]. cbn. f_equal. exact IH. }
    rewrite Hlen. reflexivity.
  - rewrite list_ascii_of_string_of_list_ascii.
    unfold SHA256.hex_of_regs. cbn [flat_map].
    repeat (apply Forall_app; split); try apply hex8_in_alphabet.
    apply Forall_nil_2.
Qed.

(** ** The rows of the administrator's dashboard *)

Lemma filter_rows_of_user (l : list (string * user)) (u : string) :
  NoDup l.*1 ->
  List.filter (fun x : row => bool_decide (fst x = u)) (flat_map rows_of l)
  = match (list_to_map l : gmap string user) !! u with
    | Some r => map (fun log => (u, log)) (logs r)
    | None => []
    end.
Proof.
  induction l as [|[k0 r0] l IH]; intros Hnd.
  - cbn. rewrite lookup_empty. reflexivity.
  - cbn in Hnd. apply NoDup_cons in Hnd as [Hk0 Hnd].
    cbn [flat_map list_to_map foldr]. rewrite List.filter_app, (IH Hnd).
    unfold rows_of at 1. cbn [fst snd].
    destruct (decide (k0 = u)) as [->|Hne].
    + cbn [fst snd]. rewrite lookup_insert_eq.
      rewrite (not_elem_of_list_to_map_1 _ _ Hk0), app_nil_r.
      induction (logs r0) as [|log rest IHl]; [reflexivity|].
      cbn [map List.filter fst]. rewrite bool_decide_eq_true_2 by reflexivity.
      f_equal. exact IHl.
    + cbn [fst snd]. rewrite lookup_insert_ne by exact Hne.
      replace (List.filter _ (map (fun log => (k0, log)) (logs r0)))
        with (@nil row); [reflexivity|].
      induction (logs r0) as [|log rest IHl]; [reflexivity|].
      cbn [map List.filter fst]. rewrite bool_decide_eq_false_2 by exact Hne.
      exact IHl.
Qed.

Lemma flat_map_rows_nil (l : list (string * user)) (kv : string * user) :
  flat_map rows_of l = [] -> In kv l -> logs (snd kv) = [].
Proof.
  induction l as [|kv0 l IH]; intros Hnil Hin; [destruct Hin|].
  cbn [flat_map] in Hnil. apply app_eq_nil in Hnil as [H0 Hl].
  destruct Hin as [<-|Hin]; [|exact (IH Hl Hin)].
  unfold rows_of in H0. destruct (logs (snd kv0)); [reflexivity|discriminate H0].
Qed.

Lemma all_logs_nil (d : document) (u : string) (r : user) :
  all_logs d = [] -> users d !! u = Some r -> logs r = [].
Proof.
  intros Hnil Hr. apply elem_of_map_to_list, list_elem_of_In in Hr.
  exact (flat_map_rows_nil _ (u, r) Hnil Hr).
Qed.

Lemma all_logs_cons (d : document) (x : row) (df : list row) :
  all_logs d = x :: df ->
  exists u r, users d !! u = Some r /\ logs r <> [].
Proof.
  intros Hcons.
  assert (Hin : In x (all_logs d)) by (rewrite Hcons; left; reflexivity).
  unfold all_logs in Hin. apply in_flat_map in Hin as ([u r] & Hkv & Hx).
  exists u, r. split.
  - apply elem_of_map_to_list, list_elem_of_In. exact Hkv.
  - unfold rows_of in Hx. cbn in Hx. intros Hnil. rewrite Hnil in Hx.
    destruct Hx.
Qed.

Lemma all_logs_nonempty_iff (d : document) :
  all_logs d <> []
  <-> exists username r, users d !! username = Some r /\ logs r <> [].
Proof.
  split.
  - destruct (all_logs d) as [|x df] eqn:Hrows; [congruence|].
    intros _. exact (all_logs_cons d x df Hrows).
  - intros (u & r & Hr & Hne) Hrows.
    exact (Hne (all_logs_nil d u r Hrows Hr)).
Qed.

(** X19. The list [all_logs] that [admin_dashboard] builds holds, for
    each user of the store, that user's log entries in the order they
    were logged, each under the user's name, and nothing for any other
    name; it is empty, so that the dashboard reports "No transactions
    recorded yet.", exactly when no user has a log entry. *)
Theorem all_logs_rows (d : document) :
  (forall username,
     List.filter (fun x : row => bool_decide (fst x = username)) (all_logs d)
     = match users d !! username with
       | Some r => map (fun log => (username, log)) (logs r)
       | None => []
       end)
  /\ (all_logs d = []
      <-> forall username r, users d !! username = Some r -> logs r = []).
Proof.
  split.
  - intros username. unfold all_logs.
    rewrite filter_rows_of_user by apply NoDup_fst_map_to_list.
    rewrite list_to_map_to_list. reflexivity.
  - split.
    + intros Hnil username r. apply all_logs_nil. exact Hnil.
    + intros Hall. destruct (all_logs d) as [|x df] eqn:Hrows; [reflexivity|].
      destruct (all_logs_cons d x df Hrows) as (u & r & Hr & Hne).
      destruct (Hne (Hall u r Hr)).
Qed.

Example all_logs_of_paid_world :
  all_logs (data (session_state paid_world))
  = [("alice", Transaction "Earned" 100 "job" "2024-01-01 10:00:00")]
  /\ all_logs default_document = [].
Proof. vm_compute. split; reflexivity. Qed.

(** X20. Once a transaction is recorded, [all_logs] is never empty
    again: if the test [if all_logs:] of [admin_dashboard] holds in a
    world, it holds in every world reached from it. *)
Theorem all_logs_stays_nonempty (w w' : world) :
  all_logs (data (session_state w)) <> [] ->
  reaches w w' ->
  all_logs (data (session_state w')) <> [].
Proof.
  intros Hsome Hreach.
  apply all_logs_nonempty_iff in Hsome as (u & r & Hr & Hne).
  destruct (reaches_users_grow w w' u r Hreach Hr)
    as (r' & more & Hr' & _ & _ & Hlogs).
  apply all_logs_nonempty_iff. exists u, r'. split; [exact Hr'|].
  rewrite Hlogs. intros Hnil. apply app_eq_nil in Hnil as [Hnil _].
  exact (Hne Hnil).
Qed.

Lemma all_logs_stays_nonempty_witness :
  all_logs (data (session_state paid_world)) <> []
  /\ reaches paid_world demo_world
  /\ all_logs (data (session_state demo_world)) <> [].
Proof.
  assert (Hreach : reaches paid_world demo_world).
  { apply (run_events_reaches (skipn 3 demo_events)). vm_compute.
    reflexivity. }
  split; [vm_compute; discriminate|]. split; [exact Hreach|].
  apply (all_logs_stays_nonempty paid_world demo_world).
  - vm_compute. discriminate.
  - exact Hreach.
Defined.
